(** * Methanal.Preds: a shallow embedding of the predicate engine

    The development follows [methanal/js/Methanal/Preds.js].  JavaScript
    values are an inductive type, the language's coercions and operators
    (ECMAScript 5, sections 9 and 11) are functions over it, a call that can
    throw returns a [result], and each function of [Preds.js] is a definition
    of the same name written with those operators.

    [Preds.js] imports [Methanal.Util] for [reduce], [TimeDelta] and [Time].
    That module's source is missing; its unit tests ([Tests/TestUtil.js]) are
    at hand.  The three members are modelled from the specification and
    checked against those tests. *)

From stdpp Require Import gmap strings list.
From Stdlib Require Import ZArith Lia.

Local Open Scope Z_scope.

(** ** Values *)

(** Numbers.  Every number the predicates compute with is an integer (a
    length, a time value in milliseconds, a bound), so the finite numbers are
    the integers, which doubles represent exactly up to 2^53 in magnitude;
    [NaN] and the two infinities are kept because the comparison operators
    treat them specially. *)
Inductive number : Type :=
  | NaN
  | NegInf
  | Fin (z : Z)
  | PosInf.

(** The values the predicates are applied to.  A [Date] object is its time
    value ([NaN] for an invalid date); an array is the list of its elements. *)
#[warnings="-register-all"]
Inductive val : Type :=
  | VUndefined
  | VNull
  | VBool (b : bool)
  | VNumber (n : number)
  | VString (s : string)
  | VArray (xs : list val)
  | VDate (tv : number).

(** The properties [Preds.js] reads off a value. *)
Inductive property : Type :=
  | P_length
  | P_offset.

(** ** Exceptions *)

Inductive exn : Type :=
  | Error
  | TypeError.

Inductive result (A : Type) : Type :=
  | Ok (a : A)
  | Throw (e : exn).
Arguments Ok {A} a.
Arguments Throw {A} e.

#[global] Instance result_ret : MRet result := fun _ a => Ok a.
#[global] Instance result_bind : MBind result := fun _ _ k m =>
  match m with
  | Ok a => k a
  | Throw e => Throw e
  end.

(** A function value: it receives its argument list ([arguments]) and
    returns or throws. *)
Definition jsfun : Type := list val -> result val.

(** The [i]-th formal parameter of a call: [undefined] when the caller passed
    fewer arguments. *)
Definition arg (i : nat) (args : list val) : val :=
  nth i args VUndefined.

(** ** The host's string conversions

    Three conversions go through the host's string grammar or through
    [Array.prototype.toString]; they are left to the host, and every theorem
    below holds whatever they return. *)
Class Host : Type := {
  (** ES5 9.3.1, [ToNumber] applied to a string. *)
  StringToNumber : string -> number;
  (** ES5 15.4.4.2, the string an array converts to. *)
  ArrayToString : list val -> string;
  (** ES5 15.9.4.2, [Date.parse]. *)
  DateParse : string -> number
}.

(** ** Coercions that do not depend on the host *)

(** ES5 9.2. *)
Definition ToBoolean (v : val) : bool :=
  match v with
  | VUndefined | VNull => false
  | VBool b => b
  | VNumber NaN => false
  | VNumber (Fin z) => negb (z =? 0)
  | VNumber _ => true
  | VString s => negb (String.eqb s "")
  | VArray _ | VDate _ => true
  end.

(** ES5 9.5: the number modulo 2^32, read as a signed 32-bit integer. *)
Definition ToInt32 (n : number) : Z :=
  match n with
  | Fin z => (z + 2 ^ 31) mod 2 ^ 32 - 2 ^ 31
  | _ => 0
  end.

(** ES5 15.9.1.14: a time value is at most 8.64e15 ms away from the epoch. *)
Definition TimeClip (n : number) : number :=
  match n with
  | Fin z => if Z.abs z <=? 8640000000000000 then Fin z else NaN
  | _ => NaN
  end.

(** [v instanceof Date]. *)
Definition instanceof_Date (v : val) : bool :=
  match v with
  | VDate _ => true
  | _ => false
  end.

(** [v === null] and [v == null] (ES5 11.9.6 and 11.9.3: only [null] is
    identical to [null]; [null] and [undefined] are loosely equal to it and
    nothing else is). *)
Definition strict_eq_null (v : val) : bool :=
  match v with
  | VNull => true
  | _ => false
  end.

Definition loose_eq_null (v : val) : bool :=
  match v with
  | VUndefined | VNull => true
  | _ => false
  end.

(** ES5 8.7.1 and 8.12.3, [v.p] for the two properties above.  Reading a
    property of [null] or [undefined] throws; a string and an array have a
    [length]; no prototype defines [offset], and numbers, booleans and dates
    have no [length]. *)
Definition Get (v : val) (p : property) : result val :=
  match v, p with
  | (VUndefined | VNull), _ => Throw TypeError
  | VString s, P_length => Ok (VNumber (Fin (Z.of_nat (String.length s))))
  | VArray xs, P_length => Ok (VNumber (Fin (Z.of_nat (length xs))))
  | _, _ => Ok VUndefined
  end.

(** [!v]. *)
Definition js_not (v : val) : val := VBool (negb (ToBoolean v)).

(** ES5 11.8.5 on two numbers: [None] is the algorithm's [undefined]. *)
Definition number_lt (x y : number) : option bool :=
  match x, y with
  | NaN, _ | _, NaN => None
  | Fin a, Fin b => Some (a <? b)
  | NegInf, NegInf => Some false
  | NegInf, _ => Some true
  | PosInf, _ => Some false
  | Fin _, NegInf => Some false
  | Fin _, PosInf => Some true
  end.

(** ES5 11.9.6 on two numbers: [NaN] is identical to nothing. *)
Definition number_eq (x y : number) : bool :=
  match x, y with
  | Fin a, Fin b => a =? b
  | NegInf, NegInf | PosInf, PosInf => true
  | _, _ => false
  end.

(** ES5 11.9.6, [x === y] where one operand at least is a primitive: values
    of different types are not identical, an object and a primitive never
    are.  Two objects are identical when they are the same object, which a
    value here does not tell; the functions embedded below compare a length,
    a primitive, and nothing else. *)
Definition strict_eq (x y : val) : bool :=
  match x, y with
  | VUndefined, VUndefined | VNull, VNull => true
  | VBool a, VBool b => Bool.eqb a b
  | VNumber a, VNumber b => number_eq a b
  | VString a, VString b => String.eqb a b
  | _, _ => false
  end.

Section WithHost.
Context `{host : Host}.

(** ** Coercions that do *)

(** ES5 9.1 with hint Number: a date gives its time value ([valueOf]), an
    array its string ([valueOf] returns the array itself, so [toString] is
    called).  [new Date(v)] calls it without a hint, which for everything but
    a date is the same. *)
Definition ToPrimitive (v : val) : val :=
  match v with
  | VArray xs => VString (ArrayToString xs)
  | VDate tv => VNumber tv
  | _ => v
  end.

(** ES5 9.3. *)
Definition ToNumber (v : val) : number :=
  match v with
  | VUndefined => NaN
  | VNull => Fin 0
  | VBool b => Fin (Z.b2z b)
  | VNumber n => n
  | VString s => StringToNumber s
  | VArray xs => StringToNumber (ArrayToString xs)
  | VDate tv => tv
  end.

(** ** Operators *)

(** ES5 11.8.5, the abstract relational comparison [x < y]. *)
Definition ARC (x y : val) : option bool :=
  match ToPrimitive x, ToPrimitive y with
  | VString sx, VString sy => Some (String.ltb sx sy)
  | px, py => number_lt (ToNumber px) (ToNumber py)
  end.

(** ES5 11.8.1 to 11.8.4. *)
Definition js_lt (x y : val) : bool :=
  match ARC x y with Some r => r | None => false end.

Definition js_gt (x y : val) : bool :=
  match ARC y x with Some r => r | None => false end.

Definition js_le (x y : val) : bool :=
  match ARC y x with Some false => true | _ => false end.

Definition js_ge (x y : val) : bool :=
  match ARC x y with Some false => true | _ => false end.

(** ES5 11.10, [a ^ b]. *)
Definition js_bitxor (a b : val) : val :=
  VNumber (Fin (Z.lxor (ToInt32 (ToNumber a)) (ToInt32 (ToNumber b)))).

(** ES5 15.9.3.2, [new Date(v)]. *)
Definition new_Date (v : val) : val :=
  match ToPrimitive v with
  | VString s => VDate (DateParse s)
  | p => VDate (TimeClip (ToNumber p))
  end.

End WithHost.

(** ** Methanal.Util *)

Module Util.

(** Modelled from the spec: [Methanal.Util.reduce], whose source is missing
    (only [test_reduce] is at hand).  The glossary has it as the
    "left-to-right accumulation of a sequence using a binary operation,
    optionally seeded; unseeded fold over an empty sequence is an error";
    the seed [z] is [None] when the caller passes no third argument. *)
Definition reduce {A : Type} (f : A -> A -> A) (xs : list A) (z : option A)
  : result A :=
  match z, xs with
  | None, [] => Throw Error
  | None, x :: xs' => Ok (fold_left f xs' x)
  | Some z0, _ => Ok (fold_left f xs z0)
  end.

(** Modelled from the spec: the unit table of [Methanal.Util.TimeDelta],
    whose source is missing: "recognized keys days, hours, minutes, seconds,
    milliseconds", weighted 86 400 000, 3 600 000, 60 000, 1000 and 1. *)
Definition units : list (string * Z) :=
  [("days", 86400000); ("hours", 3600000); ("minutes", 60000);
   ("seconds", 1000); ("milliseconds", 1)]%string.

(** Modelled from the spec: [Methanal.Util.TimeDelta], whose source is
    missing (only [test_timedelta] is at hand).  "Constructed from a
    structured unit breakdown [...] (any subset, each signed; omitted keys
    default to 0).  Value = weighted sum [...] all added algebraically".
    [test_timedelta] compares the result with a number by [===]: a
    [TimeDelta] is the number of milliseconds itself. *)
Definition TimeDelta (values : gmap string Z) : Z :=
  fold_left (fun offset u => offset + u.2 * default 0 (values !! u.1)) units 0.

(** Modelled from the spec: [Methanal.Util.Time], whose source is missing:
    "immutable value object", attributes [timestampMillis] and
    [isDateOnly]. *)
Record Time : Type := mkTime {
  timestampMillis : Z;
  isDateOnly : bool
}.

(** Modelled from the spec: [fromTimestamp] wraps a "raw millisecond count
    into a Time with isDateOnly = false". *)
Definition fromTimestamp (ts : Z) : Time :=
  {| timestampMillis := ts; isDateOnly := false |}.

(** Modelled from the spec: [offset] "returns a new Time whose timestamp is
    self.timestampMillis + delta; preserves the date-only flag". *)
Definition offset (self : Time) (delta : Z) : Time :=
  {| timestampMillis := timestampMillis self + delta;
     isDateOnly := isDateOnly self |}.

(** Modelled from the spec: [asTimestamp], whose source is missing, is a
    "pure accessor" giving the "raw millisecond value". *)
Definition asTimestamp (self : Time) : Z := timestampMillis self.

(** Modelled from the spec: [asDate], whose source is missing, is a "pure
    accessor" giving "a native date representation of the same instant"; a
    native date clips its time value ([new Date(timestamp)]). *)
Definition asDate (self : Time) : val :=
  VDate (TimeClip (Fin (timestampMillis self))).

End Util.

(** ** Methanal.Preds *)

Module Preds.

(** [a && b] and [a || b] (ES5 11.11) return one of their operands; the
    right operand is evaluated only when it is the result, so when it can
    throw it is passed as a computation. *)
Definition js_and (a b : val) : val := if ToBoolean a then b else a.

Definition js_or (a b : val) : val := if ToBoolean a then a else b.

Definition js_and_then (a : val) (b : result val) : result val :=
  if ToBoolean a then b else Ok a.

(** The loop of [_combine]: [n] iterations are left, [i] is the index and
    [vs] the array filled so far ([vs.push] appends).  [fs[i]] is a function
    as long as [i < fs.length]; calling [apply] on the [undefined] found
    beyond is a TypeError. *)
Fixpoint _combine_loop (fs : list jsfun) (arguments : list val)
    (n i : nat) (vs : list val) : result (list val) :=
  match n with
  | O => Ok vs
  | S n' =>
      match fs !! i with
      | Some f =>
          v ← f arguments;
          _combine_loop fs arguments n' (S i) (vs ++ [v])
      | None => Throw TypeError
      end
  end.

Definition combine (c : list val -> result val) (fs : list jsfun) : jsfun :=
  fun arguments =>
    vs ← _combine_loop fs arguments (length fs) 0%nat [];
    c vs.

Definition _and (a b : val) : val := js_and a b.

Definition AND (values : list val) : result val :=
  Util.reduce _and values None.

Definition intersection := AND.

Definition _or (a b : val) : val := js_or a b.

Definition OR (values : list val) : result val :=
  Util.reduce _or values None.

Definition union := OR.

Definition invert (p : jsfun) : jsfun :=
  fun arguments =>
    r ← p arguments;
    mret (js_not r).

Definition isTrue (value : val) : val := js_not (js_not value).

Definition isFalse (value : val) : val := js_not value.

Definition notNull (value : val) : val :=
  VBool (negb (strict_eq_null value)).

(** [a || b] with a right operand that can throw. *)
Definition js_or_else (a : val) (b : result val) : result val :=
  if ToBoolean a then Ok a else b.

Definition empty (value : val) : result val :=
  js_or_else (isFalse value)
    (len ← Get value P_length; mret (VBool (strict_eq len (VNumber (Fin 0))))).

Definition lengthOf (n value : val) : result val :=
  js_and_then (VBool (negb (loose_eq_null value)))
    (len ← Get value P_length; mret (VBool (strict_eq len n))).

Section WithHost.
Context `{host : Host}.

Definition _xor (a b : val) : val := js_not (js_not (js_bitxor a b)).

Definition XOR (values : list val) : result val :=
  Util.reduce _xor values None.

Definition difference := XOR.

Definition hasLength (value : val) : result val :=
  js_and_then (isTrue value)
    (len ← Get value P_length; mret (VBool (js_gt len (VNumber (Fin 0))))).

Definition lengthAtLeast (n value : val) : result val :=
  js_and_then (VBool (negb (loose_eq_null value)))
    (len ← Get value P_length; mret (VBool (js_ge len n))).

Definition lengthAtMost (n value : val) : result val :=
  js_and_then (VBool (negb (loose_eq_null value)))
    (len ← Get value P_length; mret (VBool (js_le len n))).

Definition between (a b value : val) : val :=
  js_and (VBool (js_ge value a)) (VBool (js_le value b)).

Definition lessThan (n value : val) : val := VBool (js_lt value n).

Definition notGreaterThan (n value : val) : val := VBool (js_le value n).

Definition greaterThan (n value : val) : val := VBool (js_gt value n).

Definition notLessThan (n value : val) : val := VBool (js_ge value n).

(** [timedelta] is what [Util.TimeDelta] returns, a number of milliseconds;
    [timedelta.offset] reads a property of that number. *)
Definition dateSince (timedelta : Z) (start : Util.Time) (value : val)
  : result val :=
  let t := Util.asDate (Util.offset start timedelta) in
  let value :=
    if ToBoolean (js_and value (js_not (VBool (instanceof_Date value))))
    then new_Date value
    else value in
  timedelta_offset ← Get (VNumber (Fin timedelta)) P_offset;
  mret (if js_gt timedelta_offset (VNumber (Fin 0))
        then VBool (js_gt value t)
        else VBool (js_lt value t)).

(** [now] is the time value the host's clock gives at the call, read by
    [Methanal.Util.Time()] and by [new Date()]. *)
Definition dateWithin (now : Z) (timedelta : Z) (value : val)
  : result val :=
  dateSince timedelta (Util.fromTimestamp now) value.

Definition futureDate (now : Z) (value : val) : val :=
  VBool (js_le (VDate (Fin now)) value).

(** [pastDate] is built once, from the function value [futureDate]; the
    clock is read when it is called. *)
Definition pastDate (now : Z) : jsfun :=
  invert (fun arguments => Ok (futureDate now (arg 0 arguments))).

End WithHost.

End Preds.

(** ** Notions the statements are written with *)

(** The order of the numbers: [NaN] is related to nothing, the infinities
    are the two ends. *)
Definition number_le (x y : number) : Prop :=
  match x, y with
  | NaN, _ | _, NaN => False
  | NegInf, _ => True
  | _, PosInf => True
  | Fin a, Fin b => a <= b
  | _, _ => False
  end.

(** The length of a value that has one. *)
Definition length_of (v : val) : option nat :=
  match v with
  | VString s => Some (String.length s)
  | VArray xs => Some (length xs)
  | _ => None
  end.

(** The value of a key of a unit breakdown, 0 when the key is omitted. *)
Definition unit_of (values : gmap string Z) (key : string) : Z :=
  default 0 (values !! key).

(** A predicate of one parameter as a function value. *)
Definition fn1 (f : val -> val) : jsfun := fun arguments => Ok (f (arg 0 arguments)).

(** The value [dateSince] compares: a truthy value that is not a date is
    made one. *)
Definition dateSince_value `{host : Host} (value : val) : val :=
  if ToBoolean value && negb (instanceof_Date value)
  then new_Date value
  else value.

(** A host for the closed examples below.  None of them converts a string or
    an array, so its members are never called. *)
Definition example_host : Host :=
  {| StringToNumber := fun _ => NaN;
     ArrayToString := fun _ => EmptyString;
     DateParse := fun _ => NaN |}.

(** * Theorems *)

(** ** The tests of [TestUtil.js] on the modelled [Methanal.Util] *)

(** [test_reduce], with [Z.add] for [add] and [Z.mul] for [multiply]. *)
Example test_reduce_add : Util.reduce Z.add [1; 2; 3] None = Ok 6.
Proof. reflexivity. Qed.

Example test_reduce_seeded : Util.reduce Z.mul [1; 2; 3] (Some 10) = Ok 60.
Proof. reflexivity. Qed.

Example test_reduce_empty : Util.reduce Z.add [] None = Throw Error.
Proof. reflexivity. Qed.

Example test_reduce_empty_seeded : Util.reduce Z.add [] (Some 10) = Ok 10.
Proof. reflexivity. Qed.

Example test_reduce_single : Util.reduce Z.add [10] None = Ok 10.
Proof. reflexivity. Qed.

(** [test_timedelta] and [test_offset]. *)

Example test_timedelta_days :
  Util.TimeDelta {[ "days" := 1 ]} = 1000 * 3600 * 24.
Proof. reflexivity. Qed.

Example test_timedelta_negative :
  Util.TimeDelta {[ "days" := -1 ]} = 1000 * 3600 * -24.
Proof. reflexivity. Qed.

Example test_timedelta_hours :
  Util.TimeDelta (<[ "days" := 1 ]> {[ "hours" := 2 ]}) = 1000 * 3600 * 26.
Proof. reflexivity. Qed.

Example test_timedelta_all :
  Util.TimeDelta
    (<[ "days" := 1 ]> (<[ "hours" := 2 ]> (<[ "minutes" := 3 ]>
      (<[ "seconds" := 4 ]> {[ "milliseconds" := 5 ]}))))
  = 1000 * (3600 * 26 + 60 * 3 + 4) + 5.
Proof. reflexivity. Qed.

Example test_offset :
  Util.asTimestamp
    (Util.offset (Util.fromTimestamp 1252193783002)
       (Util.TimeDelta {[ "days" := -1 ]})) = 1252107383002
  /\ Util.asTimestamp
    (Util.offset (Util.fromTimestamp 1252193783002)
       (Util.TimeDelta {[ "days" := 1 ]})) = 1252280183002.
Proof. split; reflexivity. Qed.

(** ** The error monad *)

Lemma bind_Ok {A B : Type} (a : A) (k : A -> result B) : Ok a ≫= k = k a.
Proof. reflexivity. Qed.

Lemma bind_Throw {A B : Type} (e : exn) (k : A -> result B) :
  Throw e ≫= k = Throw e.
Proof. reflexivity. Qed.

Lemma mapM_Ok_Forall2 {A B : Type} (f : A -> result B) (xs : list A) (ys : list B) :
  mapM f xs = Ok ys <-> Forall2 (fun x y => f x = Ok y) xs ys.
Proof.
  revert ys. induction xs as [|x xs IH]; intros ys; simpl.
  - split.
    + intros [= <-]. constructor.
    + intros H. inversion H. reflexivity.
  - split.
    + destruct (f x) as [y|e] eqn:Hx; simpl; [|discriminate].
      destruct (mapM f xs) as [ys'|e] eqn:Hxs; simpl; [|discriminate].
      intros [= <-]. constructor; [assumption|]. apply IH. reflexivity.
    + intros H. inversion H as [|? y ? ys' Hy Hys]; subst.
      rewrite Hy. simpl. apply IH in Hys. rewrite Hys. reflexivity.
Qed.

(** ** combine *)

(** The loop, started after [done] with [vs] gathered, appends to [vs] what
    the remaining functions return, in their order, and stops at the first
    one that throws. *)
Lemma _combine_loop_mapM (arguments : list val) (rest done : list jsfun)
    (vs : list val) :
  Preds._combine_loop (done ++ rest) arguments (length rest) (length done) vs
  = ws ← mapM (fun f : jsfun => f arguments) rest; mret (vs ++ ws).
Proof.
  revert done vs. induction rest as [|f rest IH]; intros done vs; simpl.
  - rewrite app_nil_r. reflexivity.
  - rewrite list_lookup_middle by reflexivity.
    destruct (f arguments) as [v|e]; simpl; [|reflexivity].
    replace (done ++ f :: rest) with ((done ++ [f]) ++ rest)
      by (rewrite <- app_assoc; reflexivity).
    replace (S (length done)) with (length (done ++ [f]))
      by (rewrite length_app; simpl; lia).
    rewrite IH.
    destruct (mapM _ rest) as [ws|e]; simpl; [|reflexivity].
    rewrite <- app_assoc. reflexivity.
Qed.

Lemma combine_mapM (c : list val -> result val) (fs : list jsfun)
    (arguments : list val) :
  Preds.combine c fs arguments = mapM (fun f : jsfun => f arguments) fs ≫= c.
Proof.
  unfold Preds.combine.
  pose proof (_combine_loop_mapM arguments fs [] []) as Hloop.
  simpl in Hloop. rewrite Hloop.
  destruct (mapM _ fs); reflexivity.
Qed.

(** C2: when every function of [fs], applied to the argument list
    [arguments], returns a value, the function [combine c fs] applied to
    [arguments] returns [c] applied to the list of those values, in the
    order of [fs]. *)
Theorem combine_gathers_and_combines (c : list val -> result val)
    (fs : list jsfun) (arguments vs : list val) :
  Forall2 (fun (f : jsfun) v => f arguments = Ok v) fs vs ->
  Preds.combine c fs arguments = c vs.
Proof.
  intros H. rewrite combine_mapM.
  apply mapM_Ok_Forall2 in H. rewrite H. reflexivity.
Qed.

Lemma combine_gathers_and_combines_witness :
  Forall2 (fun (f : jsfun) v => f [VNumber (Fin 0)] = Ok v)
    [fn1 Preds.isTrue; fn1 Preds.notNull] [VBool false; VBool true]
  /\ Preds.combine Preds.AND [fn1 Preds.isTrue; fn1 Preds.notNull]
       [VNumber (Fin 0)] = Preds.AND [VBool false; VBool true].
Proof.
  assert (Forall2 (fun (f : jsfun) v => f [VNumber (Fin 0)] = Ok v)
            [fn1 Preds.isTrue; fn1 Preds.notNull] [VBool false; VBool true])
    as H by (repeat constructor).
  split; [exact H|].
  exact (combine_gathers_and_combines Preds.AND _ _ _ H).
Defined.

(** X24: a function that throws ends the call with its exception: the
    functions after it are not called and [c] is not either, whatever the
    functions before it returned. *)
Lemma combine_propagates (c : list val -> result val) (before after : list jsfun)
    (f : jsfun) (arguments vs : list val) (e : exn) :
  Forall2 (fun (g : jsfun) v => g arguments = Ok v) before vs ->
  f arguments = Throw e ->
  Preds.combine c (before ++ f :: after) arguments = Throw e.
Proof.
  intros Hb Hf. rewrite combine_mapM.
  assert (mapM (fun g : jsfun => g arguments) (before ++ f :: after) = Throw e)
    as ->; [|reflexivity].
  induction Hb as [|g v gs vs' Hg _ IH]; simpl.
  - rewrite Hf. reflexivity.
  - rewrite Hg. simpl. rewrite IH. reflexivity.
Qed.

(** ** AND, OR, XOR *)

Lemma _and_bool (a b : bool) : Preds._and (VBool a) (VBool b) = VBool (a && b).
Proof. destruct a, b; reflexivity. Qed.

Lemma _or_bool (a b : bool) : Preds._or (VBool a) (VBool b) = VBool (a || b).
Proof. destruct a, b; reflexivity. Qed.

Lemma _xor_bool `{host : Host} (a b : bool) :
  Preds._xor (VBool a) (VBool b) = VBool (xorb a b).
Proof. destruct a, b; reflexivity. Qed.

(** A fold over booleans stays within the booleans when the operation does. *)
Lemma fold_left_bool (f : val -> val -> val) (g : bool -> bool -> bool) :
  (forall a b, f (VBool a) (VBool b) = VBool (g a b)) ->
  forall bs b,
    fold_left f (map VBool bs) (VBool b) = VBool (fold_left g bs b).
Proof.
  intros Hfg bs. induction bs as [|b' bs IH]; intros b; simpl.
  - reflexivity.
  - rewrite Hfg. apply IH.
Qed.

(** C3: [AND([])], [OR([])] and [XOR([])] throw, and what they throw is the
    error of the unseeded [reduce] of an empty list, whatever the operation
    folded. *)
Theorem empty_fold_throws `{host : Host} :
  (forall (A : Type) (f : A -> A -> A), Util.reduce f [] None = Throw Error)
  /\ Preds.AND [] = Throw Error
  /\ Preds.OR [] = Throw Error
  /\ Preds.XOR [] = Throw Error.
Proof. repeat split. Qed.

(** Composing no predicate at all: the error reaches the caller of the
    composed predicate. *)
Lemma combine_AND_nil (arguments : list val) :
  Preds.combine Preds.AND [] arguments = Throw Error.
Proof. reflexivity. Qed.

(** C4: on a non-empty list of booleans [b :: bs], [AND] is the left fold of
    conjunction started at [b], [OR] that of disjunction and [XOR] that of
    exclusive or; [AND([true, true, false])] is [false],
    [OR([false, false, true])] is [true], [XOR([true, false])] is [true] and
    [XOR([true, true])] is [false]. *)
Theorem logical_folds `{host : Host} :
  (forall (b : bool) (bs : list bool),
      Preds.AND (map VBool (b :: bs)) = Ok (VBool (fold_left andb bs b))
      /\ Preds.OR (map VBool (b :: bs)) = Ok (VBool (fold_left orb bs b))
      /\ Preds.XOR (map VBool (b :: bs)) = Ok (VBool (fold_left xorb bs b)))
  /\ Preds.AND [VBool true; VBool true; VBool false] = Ok (VBool false)
  /\ Preds.OR [VBool false; VBool false; VBool true] = Ok (VBool true)
  /\ Preds.XOR [VBool true; VBool false] = Ok (VBool true)
  /\ Preds.XOR [VBool true; VBool true] = Ok (VBool false).
Proof.
  split; [|repeat split].
  intros b bs. unfold Preds.AND, Preds.OR, Preds.XOR. simpl.
  rewrite (fold_left_bool _ andb _and_bool).
  rewrite (fold_left_bool _ orb _or_bool).
  rewrite (fold_left_bool _ xorb _xor_bool).
  repeat split.
Qed.

(** C9: on a list of one element [x], of any type, [AND], [OR] and [XOR]
    return [x] itself; the unseeded [reduce] of such a list returns the
    element whatever the operation is, which is never applied. *)
Theorem single_element_fold `{host : Host} (x : val) :
  (forall f : val -> val -> val, Util.reduce f [x] None = Ok x)
  /\ Preds.AND [x] = Ok x
  /\ Preds.OR [x] = Ok x
  /\ Preds.XOR [x] = Ok x.
Proof. repeat split. Qed.

(** ** TimeDelta *)

(** C5: a [TimeDelta] is the weighted sum of its unit breakdown,
    days*86400000 + hours*3600000 + minutes*60000 + seconds*1000 +
    milliseconds, where each of the five keys counts with its (signed) value
    and an omitted key counts as 0. *)
Theorem TimeDelta_weighted_sum (values : gmap string Z) :
  Util.TimeDelta values
  = unit_of values "days" * 86400000
    + unit_of values "hours" * 3600000
    + unit_of values "minutes" * 60000
    + unit_of values "seconds" * 1000
    + unit_of values "milliseconds".
Proof. unfold Util.TimeDelta, unit_of. simpl. lia. Qed.

(** A key outside the table does not count. *)
Lemma TimeDelta_other_key (values : gmap string Z) (key : string) (x : Z) :
  key ∉ Util.units.*1 ->
  Util.TimeDelta (<[key := x]> values) = Util.TimeDelta values.
Proof.
  intros Hkey. unfold Util.TimeDelta. simpl.
  rewrite !lookup_insert_ne; [reflexivity|..];
    intros ->; apply Hkey; simpl; set_solver.
Qed.

(** The breakdown given key by key: present keys as [Some], omitted ones
    as [None]. *)
Lemma TimeDelta_of_fields (days hours minutes seconds milliseconds : option Z)
    (values : gmap string Z) :
  values !! "days" = days ->
  values !! "hours" = hours ->
  values !! "minutes" = minutes ->
  values !! "seconds" = seconds ->
  values !! "milliseconds" = milliseconds ->
  Util.TimeDelta values
  = default 0 days * 86400000 + default 0 hours * 3600000
    + default 0 minutes * 60000 + default 0 seconds * 1000
    + default 0 milliseconds.
Proof.
  intros <- <- <- <- <-. unfold Util.TimeDelta. simpl. lia.
Qed.

(** ** Comparisons *)

Lemma number_lt_Some_false (x y : number) :
  number_lt x y = Some false <-> number_le y x.
Proof.
  destruct x as [| |a|], y as [| |b|]; simpl;
    try (split; [discriminate|contradiction]);
    try (split; [trivial|reflexivity]).
  split.
  - intros [= H]. apply Z.ltb_ge. exact H.
  - intros H. f_equal. apply Z.ltb_ge. exact H.
Qed.

Section WithHost.
Context `{host : Host}.

Lemma ToNumber_ToPrimitive (v : val) : ToNumber (ToPrimitive v) = ToNumber v.
Proof. destruct v; reflexivity. Qed.

(** Comparing with a number compares numbers. *)
Lemma ARC_number_l (x : number) (v : val) :
  ARC (VNumber x) v = number_lt x (ToNumber v).
Proof.
  unfold ARC. simpl ToPrimitive at 1.
  rewrite <- (ToNumber_ToPrimitive v). destruct (ToPrimitive v); reflexivity.
Qed.

Lemma ARC_number_r (v : val) (y : number) :
  ARC v (VNumber y) = number_lt (ToNumber v) y.
Proof.
  unfold ARC. simpl ToPrimitive at 2.
  rewrite <- (ToNumber_ToPrimitive v). destruct (ToPrimitive v); reflexivity.
Qed.

Lemma ARC_undefined_l (v : val) : ARC VUndefined v = None.
Proof.
  unfold ARC. simpl ToPrimitive at 1. destruct (ToPrimitive v); reflexivity.
Qed.

Lemma js_ge_number_l (x : number) (v : val) :
  js_ge (VNumber x) v = true <-> number_le (ToNumber v) x.
Proof.
  unfold js_ge. rewrite ARC_number_l, <- number_lt_Some_false.
  destruct (number_lt x (ToNumber v)) as [[]|]; split; congruence.
Qed.

Lemma js_ge_numbers (x y : number) :
  js_ge (VNumber x) (VNumber y) = true <-> number_le y x.
Proof. apply js_ge_number_l. Qed.

Lemma js_le_numbers (x y : number) :
  js_le (VNumber x) (VNumber y) = true <-> number_le x y.
Proof.
  unfold js_le. rewrite ARC_number_l, <- number_lt_Some_false. simpl.
  destruct (number_lt y x) as [[]|]; split; congruence.
Qed.

End WithHost.

(** ** Leaf predicates *)

Section WithHost.
Context `{host : Host}.

Lemma between_numbers (a b value : number) :
  Preds.between (VNumber a) (VNumber b) (VNumber value)
  = VBool (js_ge (VNumber value) (VNumber a) && js_le (VNumber value) (VNumber b)).
Proof.
  unfold Preds.between, Preds.js_and. simpl.
  destruct (js_ge (VNumber value) (VNumber a)); reflexivity.
Qed.

(** C6: on numbers [a], [b] and [value], [between(a, b, value)] is a boolean,
    and it is [true] exactly when [a <= value] and [value <= b];
    [between(1,10,1)] and [between(1,10,10)] are [true], [between(1,10,0)]
    and [between(1,10,11)] are [false]. *)
Theorem between_inclusive :
  (forall a b value : number,
      exists r : bool,
        Preds.between (VNumber a) (VNumber b) (VNumber value) = VBool r
        /\ (r = true <-> number_le a value /\ number_le value b))
  /\ Preds.between (VNumber (Fin 1)) (VNumber (Fin 10)) (VNumber (Fin 1)) = VBool true
  /\ Preds.between (VNumber (Fin 1)) (VNumber (Fin 10)) (VNumber (Fin 10)) = VBool true
  /\ Preds.between (VNumber (Fin 1)) (VNumber (Fin 10)) (VNumber (Fin 0)) = VBool false
  /\ Preds.between (VNumber (Fin 1)) (VNumber (Fin 10)) (VNumber (Fin 11)) = VBool false.
Proof.
  split; [|repeat split].
  intros a b value. eexists. split; [apply between_numbers|].
  rewrite andb_true_iff, js_ge_numbers, js_le_numbers. reflexivity.
Qed.

(** On integers the two bounds are those of [Z]. *)
Lemma between_integers (a b value : Z) :
  Preds.between (VNumber (Fin a)) (VNumber (Fin b)) (VNumber (Fin value))
  = VBool (bool_decide (a <= value <= b)).
Proof.
  rewrite between_numbers. f_equal.
  destruct (bool_decide_reflect (a <= value <= b)) as [H|H].
  - apply andb_true_iff. rewrite js_ge_numbers, js_le_numbers. exact H.
  - apply not_true_is_false. rewrite andb_true_iff, js_ge_numbers, js_le_numbers.
    exact H.
Qed.

End WithHost.

(** C7: [notNull(value)] is a boolean, [false] exactly when [value] is
    [null]; [notNull(undefined)] is [true]. *)
Theorem notNull_rejects_only_null :
  (forall value : val,
      exists r : bool,
        Preds.notNull value = VBool r /\ (r = false <-> value = VNull))
  /\ Preds.notNull VUndefined = VBool true.
Proof.
  split; [|reflexivity].
  intros value. eexists. split; [reflexivity|].
  destruct value; simpl; split; congruence.
Qed.

Section WithHost.
Context `{host : Host}.

Lemma lengthAtLeast_with_length (n value : val) (len : nat) :
  length_of value = Some len ->
  Preds.lengthAtLeast n value = Ok (VBool (js_ge (VNumber (Fin (Z.of_nat len))) n)).
Proof. destruct value; intros [= <-]; reflexivity. Qed.

Lemma lengthAtLeast_without_length (n value : val) :
  length_of value = None ->
  Preds.lengthAtLeast n value = Ok (VBool false).
Proof.
  destruct value; intros [=]; try reflexivity;
    unfold Preds.lengthAtLeast, Preds.js_and_then, js_ge; simpl;
    rewrite ARC_undefined_l; reflexivity.
Qed.

(** C8: [lengthAtLeast(n, value)] returns a boolean, and it returns [true]
    exactly when [value] is neither [null] nor [undefined], has a length,
    and that length is at least [n] ([n] read as a number, itself when it is
    one); [lengthAtLeast(2, [1,2])] is [true], [lengthAtLeast(2, [1])] and
    [lengthAtLeast(2, null)] are [false]. *)
Theorem lengthAtLeast_iff :
  (forall n value : val,
      exists r : bool,
        Preds.lengthAtLeast n value = Ok (VBool r)
        /\ (r = true <->
            value <> VNull /\ value <> VUndefined
            /\ exists len : nat,
                length_of value = Some len
                /\ number_le (ToNumber n) (Fin (Z.of_nat len))))
  /\ Preds.lengthAtLeast (VNumber (Fin 2))
       (VArray [VNumber (Fin 1); VNumber (Fin 2)]) = Ok (VBool true)
  /\ Preds.lengthAtLeast (VNumber (Fin 2)) (VArray [VNumber (Fin 1)])
     = Ok (VBool false)
  /\ Preds.lengthAtLeast (VNumber (Fin 2)) VNull = Ok (VBool false).
Proof.
  split; [|repeat split].
  intros n value. destruct (length_of value) as [len|] eqn:Hlen.
  - eexists. split; [apply (lengthAtLeast_with_length _ _ _ Hlen)|].
    rewrite js_ge_number_l. split.
    + intros Hle. repeat split; [destruct value; discriminate..|].
      exists len. split; [reflexivity|exact Hle].
    + intros (_ & _ & len' & [= <-] & Hle). exact Hle.
  - exists false. split; [apply (lengthAtLeast_without_length _ _ Hlen)|].
    split; [discriminate|].
    intros (_ & _ & len' & [=] & _).
Qed.

End WithHost.

(** ** invert *)

Lemma invert_invert (p : jsfun) (arguments : list val) :
  Preds.invert (Preds.invert p) arguments
  = r ← p arguments; mret (VBool (ToBoolean r)).
Proof.
  unfold Preds.invert, js_not.
  destruct (p arguments) as [r|e]; simpl; [|reflexivity].
  rewrite negb_involutive. reflexivity.
Qed.

Section WithHost.
Context `{host : Host}.

(** C10: [invert(invert(p))] applied to [arguments] returns the boolean
    coercion of what [p] returns there (and throws what [p] throws); where
    [p] returns a boolean, it returns the same boolean, so the two functions
    agree everywhere when [p] returns booleans only; and at one reading
    [now] of the clock, [pastDate(value)] is the negation of
    [futureDate(value)]. *)
Theorem invert_involutive_on_booleans :
  (forall (p : jsfun) (arguments : list val),
      Preds.invert (Preds.invert p) arguments
      = r ← p arguments; mret (VBool (ToBoolean r)))
  /\ (forall p : jsfun,
        (forall arguments, exists b : bool, p arguments = Ok (VBool b)) ->
        forall arguments, Preds.invert (Preds.invert p) arguments = p arguments)
  /\ (forall (now : Z) (value : val),
        exists b : bool,
          Preds.futureDate now value = VBool b
          /\ Preds.pastDate now [value] = Ok (VBool (negb b))).
Proof.
  split; [exact invert_invert|]. split.
  - intros p Hp arguments. rewrite invert_invert.
    destruct (Hp arguments) as [b ->]. reflexivity.
  - intros now value. eexists. split; reflexivity.
Qed.

End WithHost.

Lemma invert_involutive_on_booleans_witness :
  (forall arguments, exists b : bool, fn1 Preds.notNull arguments = Ok (VBool b))
  /\ Preds.invert (Preds.invert (fn1 Preds.notNull)) [VNull]
     = fn1 Preds.notNull [VNull].
Proof.
  assert (forall arguments,
             exists b : bool, fn1 Preds.notNull arguments = Ok (VBool b))
    as H by (intros arguments; eexists; reflexivity).
  split; [exact H|].
  exact (proj1 (proj2 (@invert_involutive_on_booleans example_host))
           (fn1 Preds.notNull) H [VNull]).
Defined.

(** ** dateSince *)

Section WithHost.
Context `{host : Host}.

(** [timedelta.offset] is [undefined], which is not greater than 0: whatever
    the delta, [dateSince] tests that the value lies before the boundary. *)
Lemma dateSince_tests_before (timedelta : Z) (start : Util.Time) (value : val) :
  Preds.dateSince timedelta start value
  = Ok (VBool (js_lt (dateSince_value value)
                 (Util.asDate (Util.offset start timedelta)))).
Proof.
  assert (ToBoolean (Preds.js_and value (js_not (VBool (instanceof_Date value))))
          = ToBoolean value && negb (instanceof_Date value)) as Hcond.
  { unfold Preds.js_and. destruct (ToBoolean value) eqn:Hv; [reflexivity|exact Hv]. }
  unfold Preds.dateSince, dateSince_value. rewrite Hcond. reflexivity.
Qed.

(** C1, at the delta of one day, the start 0 and the date 86400001: the
    date lies after the boundary [start.offset(delta)], one day after the
    start, and [dateSince] returns [false]. *)
Theorem dateSince_one_day_later_rejected :
  let delta := Util.TimeDelta {[ "days" := 1 ]} in
  let start := Util.fromTimestamp 0 in
  let value := VDate (Fin 86400001) in
  0 < unit_of {[ "days" := 1 ]} "days"
  /\ js_gt value (Util.asDate (Util.offset start delta)) = true
  /\ Preds.dateSince delta start value = Ok (VBool false).
Proof. repeat split. Qed.

(** With a delta of minus one day the same code path gives what the
    predicate is meant to: the value lies before the boundary. *)
Lemma dateSince_one_day_earlier :
  Preds.dateSince (Util.TimeDelta {[ "days" := -1 ]}) (Util.fromTimestamp 0)
    (VDate (Fin (-86400001))) = Ok (VBool true).
Proof. reflexivity. Qed.

End WithHost.

(** * Further properties of the combinators *)

Lemma ToBoolean_and (a b : val) :
  ToBoolean (Preds._and a b) = ToBoolean a && ToBoolean b.
Proof.
  unfold Preds._and, Preds.js_and.
  destruct (ToBoolean a) eqn:Ha; [reflexivity|exact Ha].
Qed.

Lemma ToBoolean_or (a b : val) :
  ToBoolean (Preds._or a b) = ToBoolean a || ToBoolean b.
Proof.
  unfold Preds._or, Preds.js_or.
  destruct (ToBoolean a) eqn:Ha; [exact Ha|reflexivity].
Qed.

Lemma last_cons_default {A : Type} (w : A) (ws : list A) (d : A) :
  List.last (w :: ws) d = List.last ws w.
Proof.
  revert w d. induction ws as [|x ws IH]; intros w d; [reflexivity|].
  change (List.last (w :: x :: ws) d) with (List.last (x :: ws) d).
  rewrite (IH x d), (IH x w). reflexivity.
Qed.

(** Once the accumulator of [AND] is falsy it stays what it is; that of [OR]
    does once it is truthy. *)
Lemma fold_and_falsy (vs : list val) (v : val) :
  ToBoolean v = false -> fold_left Preds._and vs v = v.
Proof.
  revert v. induction vs as [|w vs IH]; intros v Hv; simpl; [reflexivity|].
  unfold Preds._and at 2, Preds.js_and. rewrite Hv. apply IH, Hv.
Qed.

Lemma fold_or_truthy (vs : list val) (v : val) :
  ToBoolean v = true -> fold_left Preds._or vs v = v.
Proof.
  revert v. induction vs as [|w vs IH]; intros v Hv; simpl; [reflexivity|].
  unfold Preds._or at 2, Preds.js_or. rewrite Hv. apply IH, Hv.
Qed.

Lemma fold_and_first_falsy (vs : list val) (v : val) :
  fold_left Preds._and vs v
  = default (List.last vs v)
      (List.find (fun x => negb (ToBoolean x)) (v :: vs)).
Proof.
  revert v. induction vs as [|w vs IH]; intros v.
  - simpl. destruct (ToBoolean v); reflexivity.
  - destruct (ToBoolean v) eqn:Hv.
    + change (fold_left Preds._and (w :: vs) v)
        with (fold_left Preds._and vs (Preds._and v w)).
      unfold Preds._and at 2, Preds.js_and. rewrite Hv, IH.
      rewrite last_cons_default.
      change (List.find (fun x => negb (ToBoolean x)) (v :: w :: vs))
        with (if negb (ToBoolean v)
              then Some v
              else List.find (fun x => negb (ToBoolean x)) (w :: vs)).
      rewrite Hv. reflexivity.
    + rewrite (fold_and_falsy _ _ Hv). simpl. rewrite Hv. reflexivity.
Qed.

Lemma fold_or_first_truthy (vs : list val) (v : val) :
  fold_left Preds._or vs v
  = default (List.last vs v) (List.find ToBoolean (v :: vs)).
Proof.
  revert v. induction vs as [|w vs IH]; intros v.
  - simpl. destruct (ToBoolean v); reflexivity.
  - destruct (ToBoolean v) eqn:Hv.
    + rewrite (fold_or_truthy _ _ Hv). simpl. rewrite Hv. reflexivity.
    + change (fold_left Preds._or (w :: vs) v)
        with (fold_left Preds._or vs (Preds._or v w)).
      unfold Preds._or at 2, Preds.js_or. rewrite Hv, IH.
      rewrite last_cons_default.
      change (List.find ToBoolean (v :: w :: vs))
        with (if ToBoolean v then Some v else List.find ToBoolean (w :: vs)).
      rewrite Hv. reflexivity.
Qed.

Lemma ToBoolean_fold_and (vs : list val) (v : val) :
  ToBoolean (fold_left Preds._and vs v) = ToBoolean v && forallb ToBoolean vs.
Proof.
  revert v. induction vs as [|w vs IH]; intros v; simpl.
  - rewrite andb_true_r. reflexivity.
  - rewrite IH, ToBoolean_and, andb_assoc. reflexivity.
Qed.

Lemma ToBoolean_fold_or (vs : list val) (v : val) :
  ToBoolean (fold_left Preds._or vs v) = ToBoolean v || existsb ToBoolean vs.
Proof.
  revert v. induction vs as [|w vs IH]; intros v; simpl.
  - rewrite orb_false_r. reflexivity.
  - rewrite IH, ToBoolean_or, orb_assoc. reflexivity.
Qed.

(** X1: on a non-empty array of values of any type, [AND] returns one of
    them unchanged, the first falsy one, or the last one when none is falsy;
    the result is truthy exactly when every element is. *)
Theorem AND_first_falsy_or_last (v : val) (vs : list val) :
  Preds.AND (v :: vs)
  = Ok (default (List.last vs v)
          (List.find (fun x => negb (ToBoolean x)) (v :: vs)))
  /\ (r ← Preds.AND (v :: vs); mret (ToBoolean r))
     = Ok (forallb ToBoolean (v :: vs)).
Proof.
  unfold Preds.AND. simpl Util.reduce. split.
  - f_equal. apply fold_and_first_falsy.
  - simpl. f_equal. apply ToBoolean_fold_and.
Qed.

(** X2: on a non-empty array of values of any type, [OR] returns one of them
    unchanged, the first truthy one, or the last one when none is truthy;
    the result is truthy exactly when some element is. *)
Theorem OR_first_truthy_or_last (v : val) (vs : list val) :
  Preds.OR (v :: vs)
  = Ok (default (List.last vs v) (List.find ToBoolean (v :: vs)))
  /\ (r ← Preds.OR (v :: vs); mret (ToBoolean r))
     = Ok (existsb ToBoolean (v :: vs)).
Proof.
  unfold Preds.OR. simpl Util.reduce. split.
  - f_equal. apply fold_or_first_truthy.
  - simpl. f_equal. apply ToBoolean_fold_or.
Qed.

Lemma fold_xorb_parity (bs : list bool) (b : bool) :
  fold_left xorb bs b = xorb b (Nat.odd (count_occ Bool.bool_dec bs true)).
Proof.
  revert b. induction bs as [|x bs IH]; intros b; simpl.
  - destruct b; reflexivity.
  - rewrite IH. destruct (Bool.bool_dec x true) as [->|Hx].
    + rewrite Nat.odd_succ, <- Nat.negb_odd.
      destruct b, (Nat.odd (count_occ Bool.bool_dec bs true)); reflexivity.
    + apply not_true_is_false in Hx. subst x.
      destruct b, (Nat.odd (count_occ Bool.bool_dec bs true)); reflexivity.
Qed.

(** X3: on a non-empty array of booleans [XOR] is their parity: it returns
    [true] exactly when an odd number of them are [true] (not when exactly
    one is). *)
Theorem XOR_parity `{host : Host} (b : bool) (bs : list bool) :
  Preds.XOR (map VBool (b :: bs))
  = Ok (VBool (Nat.odd (count_occ Bool.bool_dec (b :: bs) true))).
Proof.
  unfold Preds.XOR. simpl Util.reduce.
  rewrite (fold_left_bool _ xorb _xor_bool), fold_xorb_parity.
  do 2 f_equal. simpl. destruct (Bool.bool_dec b true) as [->|Hb].
  - rewrite Nat.odd_succ, <- Nat.negb_odd. reflexivity.
  - apply not_true_is_false in Hb. subst b. reflexivity.
Qed.

Lemma _xor_int32 `{host : Host} (a b : val) :
  Preds._xor a b
  = VBool (negb (ToInt32 (ToNumber a) =? ToInt32 (ToNumber b))).
Proof.
  unfold Preds._xor, js_not, js_bitxor. simpl. rewrite negb_involutive.
  do 2 f_equal.
  destruct (Z.eqb_spec (ToInt32 (ToNumber a)) (ToInt32 (ToNumber b))) as [->|Hne].
  - rewrite Z.lxor_nilpotent. reflexivity.
  - apply Z.eqb_neq. intros H. apply Hne, Z.lxor_eq_0_iff, H.
Qed.

Lemma fold_xor_bool `{host : Host} (vs : list val) (r : bool) :
  exists r' : bool, fold_left Preds._xor vs (VBool r) = VBool r'.
Proof.
  revert r. induction vs as [|w vs IH]; intros r; simpl.
  - exists r. reflexivity.
  - rewrite _xor_int32. apply IH.
Qed.

(** X4: on values that are not booleans [XOR] does not compare truthiness:
    of two values it tells whether their 32-bit integer readings differ, so
    two truthy values with different readings give [true]; and on two
    elements or more its result is a boolean. *)
Theorem XOR_compares_int32 `{host : Host} :
  (forall a b : val,
      Preds.XOR [a; b]
      = Ok (VBool (negb (ToInt32 (ToNumber a) =? ToInt32 (ToNumber b)))))
  /\ (forall (a b : val) (vs : list val),
        exists r : bool, Preds.XOR (a :: b :: vs) = Ok (VBool r)).
Proof.
  split.
  - intros a b. unfold Preds.XOR. simpl. rewrite _xor_int32. reflexivity.
  - intros a b vs. unfold Preds.XOR. simpl. rewrite _xor_int32.
    destruct (fold_xor_bool vs (negb (ToInt32 (ToNumber a) =? ToInt32 (ToNumber b))))
      as [r Hr].
    exists r. rewrite Hr. reflexivity.
Qed.

(** X5: a composition of one function with [AND], [OR] or [XOR] is that
    function: it returns what the function returns, uncoerced, and throws
    what it throws. *)
Theorem combine_single `{host : Host} (f : jsfun) (arguments : list val) :
  Preds.combine Preds.AND [f] arguments = f arguments
  /\ Preds.combine Preds.OR [f] arguments = f arguments
  /\ Preds.combine Preds.XOR [f] arguments = f arguments.
Proof.
  rewrite !combine_mapM. simpl.
  destruct (f arguments); repeat split.
Qed.

Lemma mapM_invert (fs : list jsfun) (arguments : list val) :
  mapM (fun f : jsfun => f arguments) (map Preds.invert fs)
  = vs ← mapM (fun f : jsfun => f arguments) fs; mret (map js_not vs).
Proof.
  induction fs as [|f fs IH]; [reflexivity|].
  change (mapM (fun f : jsfun => f arguments) (map Preds.invert (f :: fs)))
    with (Preds.invert f arguments ≫= fun y =>
          mapM (fun f : jsfun => f arguments) (map Preds.invert fs) ≫= fun k =>
          mret (y :: k)).
  rewrite IH. unfold Preds.invert. simpl.
  destruct (f arguments) as [v|e]; simpl; [|reflexivity].
  destruct (mapM _ fs); reflexivity.
Qed.

Lemma js_not_fold_or (vs : list val) (v : val) :
  js_not (fold_left Preds._or vs v)
  = fold_left Preds._and (map js_not vs) (js_not v).
Proof.
  revert v. induction vs as [|w vs IH]; intros v; simpl; [reflexivity|].
  rewrite IH. f_equal. unfold js_not at 1.
  rewrite ToBoolean_or, negb_orb. symmetry. apply _and_bool.
Qed.

Lemma js_not_fold_and (vs : list val) (v : val) :
  js_not (fold_left Preds._and vs v)
  = fold_left Preds._or (map js_not vs) (js_not v).
Proof.
  revert v. induction vs as [|w vs IH]; intros v; simpl; [reflexivity|].
  rewrite IH. f_equal. unfold js_not at 1.
  rewrite ToBoolean_and, negb_andb. symmetry. apply _or_bool.
Qed.

(** X6: De Morgan's laws hold for composed predicates, on every list of
    functions and every argument list: inverting a union is the
    intersection of the inverted functions, inverting an intersection is
    the union of the inverted functions; both sides throw alike, on no
    function at all and when a function throws. *)
Theorem combine_de_morgan (fs : list jsfun) (arguments : list val) :
  Preds.invert (Preds.combine Preds.OR fs) arguments
  = Preds.combine Preds.AND (map Preds.invert fs) arguments
  /\ Preds.invert (Preds.combine Preds.AND fs) arguments
     = Preds.combine Preds.OR (map Preds.invert fs) arguments.
Proof.
  unfold Preds.invert at 1 3. rewrite !combine_mapM, !mapM_invert.
  destruct (mapM _ fs) as [[|v vs]|e]; simpl; [split; reflexivity| |split; reflexivity].
  unfold Preds.AND, Preds.OR. simpl.
  rewrite js_not_fold_or, js_not_fold_and. split; reflexivity.
Qed.

(** X7: inverting three times is inverting once. *)
Theorem invert_thrice (p : jsfun) (arguments : list val) :
  Preds.invert (Preds.invert (Preds.invert p)) arguments
  = Preds.invert p arguments.
Proof.
  rewrite invert_invert. unfold Preds.invert.
  destruct (p arguments); reflexivity.
Qed.

(** * Further properties of the length predicates *)

Lemma hasLength_eq `{host : Host} (value : val) :
  Preds.hasLength value
  = Ok (VBool match length_of value with
              | Some len => negb (Nat.eqb len 0)
              | None => false
              end).
Proof.
  destruct value as [| |b|n|s|xs|tv]; try reflexivity.
  - destruct b; reflexivity.
  - destruct n as [| |z|]; try reflexivity. destruct z; reflexivity.
  - destruct s; reflexivity.
  - destruct xs; reflexivity.
Qed.

Lemma empty_eq (value : val) :
  Preds.empty value
  = Ok (VBool match length_of value with
              | Some len => Nat.eqb len 0
              | None => negb (ToBoolean value)
              end).
Proof.
  destruct value as [| |b|n|s|xs|tv]; try reflexivity.
  - destruct b; reflexivity.
  - destruct n as [| |z|]; try reflexivity. destruct z; reflexivity.
  - destruct s; reflexivity.
  - destruct xs; reflexivity.
Qed.

Section WithHost.
Context `{host : Host}.

Lemma ARC_undefined_r (v : val) : ARC v VUndefined = None.
Proof.
  unfold ARC. simpl ToPrimitive at 2.
  destruct (ToPrimitive v) as [| |b|n|s|xs|tv]; simpl; try reflexivity.
  - destruct n; reflexivity.
  - destruct (StringToNumber s); reflexivity.
  - destruct (StringToNumber _); reflexivity.
  - destruct tv; reflexivity.
Qed.

Lemma js_le_number_l (x : number) (v : val) :
  js_le (VNumber x) v = true <-> number_le x (ToNumber v).
Proof.
  unfold js_le. rewrite ARC_number_r, <- number_lt_Some_false.
  destruct (number_lt (ToNumber v) x) as [[]|]; split; congruence.
Qed.

Lemma lengthAtMost_with_length (n value : val) (len : nat) :
  length_of value = Some len ->
  Preds.lengthAtMost n value = Ok (VBool (js_le (VNumber (Fin (Z.of_nat len))) n)).
Proof. destruct value; intros [= <-]; reflexivity. Qed.

Lemma lengthAtMost_without_length (n value : val) :
  length_of value = None ->
  Preds.lengthAtMost n value = Ok (VBool false).
Proof.
  destruct value; intros [=]; try reflexivity;
    unfold Preds.lengthAtMost, Preds.js_and_then, js_le; simpl;
    rewrite ARC_undefined_r; reflexivity.
Qed.

Lemma lengthOf_with_length (n value : val) (len : nat) :
  length_of value = Some len ->
  Preds.lengthOf n value = Ok (VBool (strict_eq (VNumber (Fin (Z.of_nat len))) n)).
Proof. destruct value; intros [= <-]; reflexivity. Qed.

Lemma lengthOf_number_without_length (n : number) (value : val) :
  length_of value = None ->
  Preds.lengthOf (VNumber n) value = Ok (VBool false).
Proof. destruct value; intros [=]; reflexivity. Qed.

(** X8: none of the five length predicates throws, whatever the value,
    [null] and [undefined] included: the read of [value.length] is guarded
    in each, and each returns a boolean. *)
Theorem length_predicates_never_throw (n value : val) :
  (exists b : bool, Preds.hasLength value = Ok (VBool b))
  /\ (exists b : bool, Preds.empty value = Ok (VBool b))
  /\ (exists b : bool, Preds.lengthOf n value = Ok (VBool b))
  /\ (exists b : bool, Preds.lengthAtLeast n value = Ok (VBool b))
  /\ (exists b : bool, Preds.lengthAtMost n value = Ok (VBool b)).
Proof.
  split; [eexists; apply hasLength_eq|].
  split; [eexists; apply empty_eq|].
  destruct (length_of value) as [len|] eqn:Hlen.
  - split; [eexists; apply (lengthOf_with_length _ _ _ Hlen)|].
    split; [eexists; apply (lengthAtLeast_with_length _ _ _ Hlen)|].
    eexists; apply (lengthAtMost_with_length _ _ _ Hlen).
  - split; [|split].
    + destruct value; try discriminate Hlen; eexists; reflexivity.
    + eexists; apply (lengthAtLeast_without_length _ _ Hlen).
    + eexists; apply (lengthAtMost_without_length _ _ Hlen).
Qed.

(** X9: [hasLength(value)] is [true] exactly when the value has a length
    and that length is positive, and it is the same test as
    [lengthAtLeast(1, value)]. *)
Theorem hasLength_positive_length (value : val) :
  (Preds.hasLength value = Ok (VBool true) <->
   exists len : nat, length_of value = Some len /\ (0 < len)%nat)
  /\ Preds.hasLength value = Preds.lengthAtLeast (VNumber (Fin 1)) value.
Proof.
  rewrite hasLength_eq. destruct (length_of value) as [len|] eqn:Hlen.
  - rewrite (lengthAtLeast_with_length _ _ _ Hlen). split.
    + destruct len; simpl; split.
      * discriminate.
      * intros (len' & [= <-] & Hpos). lia.
      * intros _. exists (S len). split; [reflexivity|lia].
      * reflexivity.
    + destruct len; [reflexivity|]. do 2 f_equal. symmetry.
      apply js_ge_numbers. simpl. lia.
  - rewrite (lengthAtLeast_without_length _ _ Hlen). split; [|reflexivity].
    split; [discriminate|]. intros (len & [=] & _).
Qed.

Lemma falsy_length (value : val) (len : nat) :
  length_of value = Some len -> ToBoolean value = false -> len = 0%nat.
Proof.
  destruct value as [| |b|n|s|xs|tv]; try discriminate.
  intros [= <-]. destruct s; [reflexivity|discriminate].
Qed.

(** X10: [empty(value)] is [true] exactly when the value is falsy or has
    length 0.  A value is never both empty and with a length, and it is
    neither exactly when it is truthy and has no length (a number other
    than 0, [true], a date). *)
Theorem empty_falsy_or_no_element (value : val) :
  (Preds.empty value = Ok (VBool true) <->
   ToBoolean value = false \/ length_of value = Some 0%nat)
  /\ (exists e h : bool,
        Preds.empty value = Ok (VBool e)
        /\ Preds.hasLength value = Ok (VBool h)
        /\ e && h = false
        /\ (e || h = false <->
            ToBoolean value = true /\ length_of value = None)).
Proof.
  rewrite empty_eq, hasLength_eq.
  destruct (length_of value) as [len|] eqn:Hlen.
  - split.
    + split.
      * intros [= H]. apply Nat.eqb_eq in H. subst len. right. reflexivity.
      * intros [H|[= ->]]; [|reflexivity].
        rewrite (falsy_length _ _ Hlen H). reflexivity.
    + do 2 eexists. split; [reflexivity|]. split; [reflexivity|].
      split; [apply andb_negb_r|].
      rewrite orb_negb_r. split; [discriminate|intros [_ [=]]].
  - split.
    + split.
      * intros [= H]. left. apply negb_true_iff, H.
      * intros [->|[=]]. reflexivity.
    + do 2 eexists. split; [reflexivity|]. split; [reflexivity|].
      split; [apply andb_false_r|].
      rewrite orb_false_r, negb_false_iff. split; [intros H|intros [H _]]; auto.
Qed.

End WithHost.

Section WithHost.
Context `{host : Host}.

(** X11: [lengthAtMost(n, value)] returns [true] exactly when the value is
    neither [null] nor [undefined], has a length, and that length is at most
    [n] ([n] read as a number); a value without a length gives [false]. *)
Theorem lengthAtMost_iff (n value : val) :
  exists r : bool,
    Preds.lengthAtMost n value = Ok (VBool r)
    /\ (r = true <->
        value <> VNull /\ value <> VUndefined
        /\ exists len : nat,
            length_of value = Some len
            /\ number_le (Fin (Z.of_nat len)) (ToNumber n)).
Proof.
  destruct (length_of value) as [len|] eqn:Hlen.
  - eexists. split; [apply (lengthAtMost_with_length _ _ _ Hlen)|].
    rewrite js_le_number_l. split.
    + intros Hle. repeat split; [destruct value; discriminate..|].
      exists len. split; [reflexivity|exact Hle].
    + intros (_ & _ & len' & [= <-] & Hle). exact Hle.
  - exists false. split; [apply (lengthAtMost_without_length _ _ Hlen)|].
    split; [discriminate|].
    intros (_ & _ & len' & [=] & _).
Qed.

(** X12: for a number [n], [lengthOf(n, value)] returns [true] exactly when
    the value has a length and that length is [n], which is exactly when
    [lengthAtLeast(n, value)] and [lengthAtMost(n, value)] both return
    [true]. *)
Theorem lengthOf_iff (n : number) (value : val) :
  (Preds.lengthOf (VNumber n) value = Ok (VBool true) <->
   exists len : nat, length_of value = Some len /\ n = Fin (Z.of_nat len))
  /\ (Preds.lengthOf (VNumber n) value = Ok (VBool true) <->
      Preds.lengthAtLeast (VNumber n) value = Ok (VBool true)
      /\ Preds.lengthAtMost (VNumber n) value = Ok (VBool true)).
Proof.
  destruct (length_of value) as [len|] eqn:Hlen.
  - rewrite (lengthOf_with_length _ _ _ Hlen),
      (lengthAtLeast_with_length _ _ _ Hlen),
      (lengthAtMost_with_length _ _ _ Hlen).
    assert (strict_eq (VNumber (Fin (Z.of_nat len))) (VNumber n) = true
            <-> n = Fin (Z.of_nat len)) as Heq.
    { simpl. destruct n as [| |z|]; simpl; try (split; discriminate).
      rewrite Z.eqb_eq. split; [intros ->; reflexivity|intros [= ->]; reflexivity]. }
    split.
    + split.
      * intros [= H]. exists len. split; [reflexivity|apply Heq, H].
      * intros (len' & [= <-] & Hn). do 2 f_equal. apply Heq, Hn.
    + split.
      * intros [= H]. apply Heq in H. subst n.
        split; do 2 f_equal; [apply js_ge_numbers|apply js_le_numbers];
          simpl; lia.
      * intros [[= Hge] [= Hle]]. do 2 f_equal.
        apply js_ge_numbers in Hge. apply js_le_numbers in Hle.
        apply Heq. destruct n as [| |z|]; simpl in Hge, Hle; try contradiction.
        f_equal. lia.
  - rewrite (lengthOf_number_without_length _ _ Hlen),
      (lengthAtLeast_without_length _ _ Hlen).
    split; (split; [discriminate|]).
    + intros (len & [=] & _).
    + intros [[=] _].
Qed.

End WithHost.

(** * Further properties of the comparison predicates *)

Lemma number_lt_Some_true (x y : number) :
  number_lt x y = Some true <-> number_le x y /\ ~ number_le y x.
Proof.
  destruct x as [| |a|], y as [| |b|]; simpl;
    try (split; [discriminate|intros []; contradiction]);
    try (split; [discriminate|intros [_ H]; exfalso; apply H; exact I]);
    try (split; [intros _; split; [exact I|intros []]|reflexivity]).
  split.
  - intros [= H]. apply Z.ltb_lt in H. lia.
  - intros [H1 H2]. f_equal. apply Z.ltb_lt. lia.
Qed.

Lemma number_le_trans (x y z : number) :
  number_le x y -> number_le y z -> number_le x z.
Proof.
  destruct x as [| |a|], y as [| |b|], z as [| |c|]; simpl;
    try contradiction; try trivial.
  lia.
Qed.

Section WithHost.
Context `{host : Host}.

Lemma js_lt_numbers (x y : number) :
  js_lt (VNumber x) (VNumber y) = true <-> number_le x y /\ ~ number_le y x.
Proof.
  unfold js_lt. rewrite ARC_number_l, <- number_lt_Some_true. simpl.
  destruct (number_lt x y) as [[]|]; split; congruence.
Qed.

Lemma js_gt_numbers (x y : number) :
  js_gt (VNumber x) (VNumber y) = true <-> number_le y x /\ ~ number_le x y.
Proof.
  unfold js_gt. rewrite ARC_number_l, <- number_lt_Some_true. simpl.
  destruct (number_lt y x) as [[]|]; split; congruence.
Qed.

(** X13: on numbers the four comparison predicates test the order of the
    value against the bound [n]: [lessThan] and [greaterThan] strictly,
    [notGreaterThan] and [notLessThan] with equality allowed. *)
Theorem comparisons_on_numbers (n value : number) :
  (Preds.lessThan (VNumber n) (VNumber value) = VBool true <->
   number_le value n /\ ~ number_le n value)
  /\ (Preds.notGreaterThan (VNumber n) (VNumber value) = VBool true <->
      number_le value n)
  /\ (Preds.greaterThan (VNumber n) (VNumber value) = VBool true <->
      number_le n value /\ ~ number_le value n)
  /\ (Preds.notLessThan (VNumber n) (VNumber value) = VBool true <->
      number_le n value).
Proof.
  unfold Preds.lessThan, Preds.notGreaterThan, Preds.greaterThan,
    Preds.notLessThan.
  split; [|split; [|split]].
  - etransitivity; [|apply js_lt_numbers]. split; congruence.
  - etransitivity; [|apply js_le_numbers]. split; congruence.
  - etransitivity; [|apply js_gt_numbers]. split; congruence.
  - etransitivity; [|apply js_ge_numbers]. split; congruence.
Qed.

(** X14: [notLessThan] is the negation of [lessThan], and [notGreaterThan]
    that of [greaterThan], on numbers other than [NaN]. *)
Theorem comparisons_complement (n value : number) :
  n <> NaN -> value <> NaN ->
  Preds.notLessThan (VNumber n) (VNumber value)
  = js_not (Preds.lessThan (VNumber n) (VNumber value))
  /\ Preds.notGreaterThan (VNumber n) (VNumber value)
     = js_not (Preds.greaterThan (VNumber n) (VNumber value)).
Proof.
  intros Hn Hv.
  unfold Preds.lessThan, Preds.notGreaterThan, Preds.greaterThan,
    Preds.notLessThan, js_not, js_lt, js_le, js_gt, js_ge.
  rewrite !ARC_number_l. simpl.
  destruct n as [| |a|], value as [| |b|]; try contradiction;
    split; reflexivity.
Qed.

(** X15: a value that reads as [NaN] ([undefined], an invalid date) fails
    every comparison with a number: the four comparison predicates and
    [between] return [false], the negated ones included. *)
Theorem comparisons_NaN (a b : number) (value : val) :
  ToNumber value = NaN ->
  Preds.lessThan (VNumber a) value = VBool false
  /\ Preds.notGreaterThan (VNumber a) value = VBool false
  /\ Preds.greaterThan (VNumber a) value = VBool false
  /\ Preds.notLessThan (VNumber a) value = VBool false
  /\ Preds.between (VNumber a) (VNumber b) value = VBool false.
Proof.
  intros HNaN.
  unfold Preds.between, Preds.js_and, Preds.lessThan, Preds.notGreaterThan,
    Preds.greaterThan, Preds.notLessThan, js_lt, js_le, js_gt, js_ge.
  rewrite !ARC_number_l, !ARC_number_r, HNaN. simpl.
  destruct a, b; repeat split; reflexivity.
Qed.

(** X16: [between(a, b, value)] is the intersection of the two bounds: the
    composition by [combine] and [AND] of [notLessThan] applied to [a] and
    [notGreaterThan] applied to [b], called with the value. *)
Theorem between_is_intersection (a b value : val) :
  Preds.combine Preds.intersection
    [fn1 (Preds.notLessThan a); fn1 (Preds.notGreaterThan b)] [value]
  = Ok (Preds.between a b value).
Proof.
  rewrite combine_mapM. simpl. unfold Preds.intersection, Preds.AND. simpl.
  reflexivity.
Qed.

(** X17: when the upper bound is below the lower one, [between] accepts no
    number. *)
Theorem between_empty_range (a b value : number) :
  ~ number_le a b ->
  Preds.between (VNumber a) (VNumber b) (VNumber value) = VBool false.
Proof.
  intros Hab. rewrite between_numbers. f_equal.
  apply not_true_is_false. rewrite andb_true_iff, js_ge_numbers, js_le_numbers.
  intros [Ha Hb]. apply Hab. exact (number_le_trans _ _ _ Ha Hb).
Qed.

End WithHost.

Lemma comparisons_complement_witness :
  Fin 3 <> NaN /\ Fin 5 <> NaN
  /\ @Preds.notLessThan example_host (VNumber (Fin 3)) (VNumber (Fin 5))
     = js_not (@Preds.lessThan example_host (VNumber (Fin 3)) (VNumber (Fin 5))).
Proof.
  assert (Fin 3 <> NaN) as H3 by discriminate.
  assert (Fin 5 <> NaN) as H5 by discriminate.
  split; [exact H3|]. split; [exact H5|].
  exact (proj1 (@comparisons_complement example_host (Fin 3) (Fin 5) H3 H5)).
Defined.

Lemma comparisons_NaN_witness :
  @ToNumber example_host VUndefined = NaN
  /\ @Preds.between example_host (VNumber (Fin 1)) (VNumber (Fin 10)) VUndefined
     = VBool false.
Proof.
  split; [reflexivity|].
  exact (proj2 (proj2 (proj2 (proj2
    (@comparisons_NaN example_host (Fin 1) (Fin 10) VUndefined eq_refl))))).
Defined.

Lemma between_empty_range_witness :
  ~ number_le (Fin 10) (Fin 1)
  /\ @Preds.between example_host (VNumber (Fin 10)) (VNumber (Fin 1))
       (VNumber (Fin 5)) = VBool false.
Proof.
  assert (~ number_le (Fin 10) (Fin 1)) as H by (simpl; lia).
  split; [exact H|].
  exact (@between_empty_range example_host (Fin 10) (Fin 1) (Fin 5) H).
Defined.

(** * Further properties of the date predicates *)

Section WithHost.
Context `{host : Host}.

(** A date compares as its time value. *)
Lemma ARC_date_l (tv : number) (v : val) : ARC (VDate tv) v = ARC (VNumber tv) v.
Proof. reflexivity. Qed.

Lemma TimeClip_in_range (z : Z) :
  Z.abs z <= 8640000000000000 -> TimeClip (Fin z) = Fin z.
Proof.
  intros Hz. unfold TimeClip.
  destruct (Z.leb_spec (Z.abs z) 8640000000000000); [reflexivity|lia].
Qed.

(** X18: [dateSince] treats a number as the date with that time value: for
    a number within the range of time values the result is that of the
    date, 0 included, which is falsy and is compared as it is. *)
Theorem dateSince_number_as_date (timedelta : Z) (start : Util.Time) (z : Z) :
  Z.abs z <= 8640000000000000 ->
  Preds.dateSince timedelta start (VNumber (Fin z))
  = Preds.dateSince timedelta start (VDate (Fin z)).
Proof.
  intros Hz. rewrite !dateSince_tests_before. do 2 f_equal.
  destruct (Z.eqb_spec z 0) as [->|Hne]; [reflexivity|].
  assert (dateSince_value (VNumber (Fin z)) = VDate (TimeClip (Fin z))) as ->.
  { unfold dateSince_value.
    change (ToBoolean (VNumber (Fin z))) with (negb (z =? 0)).
    apply Z.eqb_neq in Hne. rewrite Hne. reflexivity. }
  rewrite (TimeClip_in_range z Hz). reflexivity.
Qed.

(** X19: [dateSince] never throws; it returns [false] for [undefined] and
    for an invalid date, whatever the delta and the start, and it takes
    [null] for the epoch. *)
Theorem dateSince_edge_values (timedelta : Z) (start : Util.Time) :
  (forall value : val,
      exists r : bool, Preds.dateSince timedelta start value = Ok (VBool r))
  /\ Preds.dateSince timedelta start VUndefined = Ok (VBool false)
  /\ Preds.dateSince timedelta start (VDate NaN) = Ok (VBool false)
  /\ Preds.dateSince timedelta start VNull
     = Preds.dateSince timedelta start (VDate (Fin 0)).
Proof.
  split; [intros value; eexists; apply dateSince_tests_before|].
  rewrite !dateSince_tests_before. split; [|split].
  - change (dateSince_value VUndefined) with VUndefined.
    unfold js_lt. rewrite ARC_undefined_l. reflexivity.
  - change (dateSince_value (VDate NaN)) with (VDate NaN).
    unfold js_lt. rewrite ARC_date_l, ARC_number_l. reflexivity.
  - reflexivity.
Qed.

(** X20: whatever the delta, of days ahead or of days back, [dateSince]
    accepts the dates that lie strictly before the boundary
    [start.offset(timedelta)], and only those. *)
Theorem dateSince_strictly_before (timedelta : Z) (start : Util.Time) (t : Z) :
  Z.abs (Util.timestampMillis start + timedelta) <= 8640000000000000 ->
  Preds.dateSince timedelta start (VDate (Fin t))
  = Ok (VBool (t <? Util.timestampMillis start + timedelta)).
Proof.
  intros Hrange. rewrite dateSince_tests_before. do 2 f_equal.
  unfold Util.asDate.
  change (Util.timestampMillis (Util.offset start timedelta))
    with (Util.timestampMillis start + timedelta).
  rewrite (TimeClip_in_range _ Hrange).
  change (dateSince_value (VDate (Fin t))) with (VDate (Fin t)).
  unfold js_lt. rewrite ARC_date_l, ARC_number_l. reflexivity.
Qed.

(** X21: at the clock reading [now], [futureDate] accepts the dates from
    [now] on, [now] included, and [pastDate] those strictly before [now];
    an invalid date is no future date and so is a past date, and so is the
    [undefined] of a call without argument. *)
Theorem futureDate_pastDate_on_dates (now : Z) :
  (forall t : Z,
      Preds.futureDate now (VDate (Fin t)) = VBool (now <=? t)
      /\ Preds.pastDate now [VDate (Fin t)] = Ok (VBool (t <? now)))
  /\ Preds.futureDate now (VDate NaN) = VBool false
  /\ Preds.pastDate now [VDate NaN] = Ok (VBool true)
  /\ Preds.pastDate now [] = Ok (VBool true).
Proof.
  split; [|repeat split].
  intros t.
  assert (Preds.futureDate now (VDate (Fin t)) = VBool (now <=? t)) as Hf.
  { unfold Preds.futureDate, js_le. simpl. rewrite Z.leb_antisym.
    destruct (t <? now); reflexivity. }
  split; [exact Hf|].
  change (Preds.pastDate now [VDate (Fin t)])
    with (Ok (js_not (Preds.futureDate now (VDate (Fin t))))).
  rewrite Hf, Z.ltb_antisym. reflexivity.
Qed.

End WithHost.

Lemma dateSince_number_as_date_witness :
  Z.abs 5 <= 8640000000000000
  /\ @Preds.dateSince example_host 86400000 (Util.fromTimestamp 0) (VNumber (Fin 5))
     = @Preds.dateSince example_host 86400000 (Util.fromTimestamp 0) (VDate (Fin 5)).
Proof.
  assert (Z.abs 5 <= 8640000000000000) as H by (simpl; lia).
  split; [exact H|].
  exact (@dateSince_number_as_date example_host 86400000 (Util.fromTimestamp 0) 5 H).
Defined.

Lemma dateSince_strictly_before_witness :
  Z.abs (Util.timestampMillis (Util.fromTimestamp 0) + 86400000) <= 8640000000000000
  /\ @Preds.dateSince example_host 86400000 (Util.fromTimestamp 0) (VDate (Fin 5))
     = Ok (VBool (5 <? Util.timestampMillis (Util.fromTimestamp 0) + 86400000)).
Proof.
  assert (Z.abs (Util.timestampMillis (Util.fromTimestamp 0) + 86400000)
          <= 8640000000000000) as H by (simpl; lia).
  split; [exact H|].
  exact (@dateSince_strictly_before example_host 86400000 (Util.fromTimestamp 0) 5 H).
Defined.

(** The composition of [isTrue] with a function that reads [value.length]
    unguarded, called with [null]: [isTrue(null)] is [false], which decides
    the intersection, and the call throws all the same. *)
Lemma combine_propagates_witness :
  Forall2 (fun (g : jsfun) v => g [VNull] = Ok v) [fn1 Preds.isTrue] [VBool false]
  /\ (fun arguments => Get (arg 0 arguments) P_length) [VNull] = Throw TypeError
  /\ Preds.combine Preds.AND
       ([fn1 Preds.isTrue] ++ (fun arguments => Get (arg 0 arguments) P_length) :: [])
       [VNull] = Throw TypeError.
Proof.
  assert (Forall2 (fun (g : jsfun) v => g [VNull] = Ok v)
            [fn1 Preds.isTrue] [VBool false]) as H by (repeat constructor).
  split; [exact H|]. split; [reflexivity|].
  exact (combine_propagates Preds.AND [fn1 Preds.isTrue] []
           (fun arguments => Get (arg 0 arguments) P_length)
           [VNull] [VBool false] TypeError H eq_refl).
Defined.

(** * Composed validators *)

(** X22: when every function of a non-empty [fs] returns, the intersection
    composed of them returns a truthy value exactly when every function
    does, and the union exactly when some function does. *)
Theorem combine_truthiness (fs : list jsfun) (arguments : list val)
    (v : val) (vs : list val) :
  Forall2 (fun (f : jsfun) w => f arguments = Ok w) fs (v :: vs) ->
  (r ← Preds.combine Preds.intersection fs arguments; mret (ToBoolean r))
  = Ok (forallb ToBoolean (v :: vs))
  /\ (r ← Preds.combine Preds.union fs arguments; mret (ToBoolean r))
     = Ok (existsb ToBoolean (v :: vs)).
Proof.
  intros H. apply mapM_Ok_Forall2 in H. rewrite !combine_mapM, H.
  unfold Preds.intersection, Preds.union, Preds.AND, Preds.OR. simpl.
  rewrite ToBoolean_fold_and, ToBoolean_fold_or. split; reflexivity.
Qed.

Lemma combine_truthiness_witness :
  Forall2 (fun (f : jsfun) w => f [VString "ab"] = Ok w)
    [fn1 Preds.isTrue; fn1 Preds.notNull] [VBool true; VBool true]
  /\ (r ← Preds.combine Preds.intersection
            [fn1 Preds.isTrue; fn1 Preds.notNull] [VString "ab"];
      mret (ToBoolean r))
     = Ok (forallb ToBoolean [VBool true; VBool true]).
Proof.
  assert (Forall2 (fun (f : jsfun) w => f [VString "ab"] = Ok w)
            [fn1 Preds.isTrue; fn1 Preds.notNull] [VBool true; VBool true])
    as H by (repeat constructor).
  split; [exact H|].
  exact (proj1 (combine_truthiness _ _ _ _ H)).
Defined.

(** X23: a lower bound on the length can be lowered and an upper bound
    raised: what [lengthAtLeast(n, .)] accepts, [lengthAtLeast(m, .)]
    accepts for [m <= n], and what [lengthAtMost(m, .)] accepts,
    [lengthAtMost(n, .)] accepts. *)
Theorem length_bounds_monotone `{host : Host} (m n : number) (value : val) :
  number_le m n ->
  (Preds.lengthAtLeast (VNumber n) value = Ok (VBool true) ->
   Preds.lengthAtLeast (VNumber m) value = Ok (VBool true))
  /\ (Preds.lengthAtMost (VNumber m) value = Ok (VBool true) ->
      Preds.lengthAtMost (VNumber n) value = Ok (VBool true)).
Proof.
  intros Hmn. destruct (length_of value) as [len|] eqn:Hlen.
  - rewrite !(lengthAtLeast_with_length _ _ _ Hlen),
      !(lengthAtMost_with_length _ _ _ Hlen).
    split; intros [= H]; do 2 f_equal.
    + apply js_ge_numbers. apply js_ge_numbers in H.
      exact (number_le_trans _ _ _ Hmn H).
    + apply js_le_numbers. apply js_le_numbers in H.
      exact (number_le_trans _ _ _ H Hmn).
  - rewrite !(lengthAtLeast_without_length _ _ Hlen),
      !(lengthAtMost_without_length _ _ Hlen).
    split; discriminate.
Qed.

Lemma length_bounds_monotone_witness :
  number_le (Fin 1) (Fin 2)
  /\ @Preds.lengthAtLeast example_host (VNumber (Fin 2)) (VString "abc")
     = Ok (VBool true)
  /\ @Preds.lengthAtLeast example_host (VNumber (Fin 1)) (VString "abc")
     = Ok (VBool true).
Proof.
  assert (number_le (Fin 1) (Fin 2)) as H by (simpl; lia).
  split; [exact H|]. split; [reflexivity|].
  exact (proj1 (@length_bounds_monotone example_host (Fin 1) (Fin 2)
                  (VString "abc") H) eq_refl).
Defined.
